(** * AQI Prediction App: a shallow embedding of [app.py]

    The application is one Streamlit script.  Its numeric core is the
    bucket classifier [assign_aqi_bucket] and the calibration and
    clipping of the raw model output; the rest of the script loads four
    pickled artifacts, draws the input form and runs one prediction per
    press of the button.

    Numbers.  The script computes with floating-point values, the
    specification reasons over the reals.  Every finite floating-point
    value is a rational and the only operations applied to the numbers
    are one affine map and order comparisons, so the embedding takes
    [Q] with exact arithmetic: definitions stay executable and the
    statements are the specification's idealised ones.  Equality of
    numbers is [Qeq] (written [==]). *)

From Stdlib Require Import String Ascii List Bool Arith Lia.
From Stdlib Require Import QArith Qminmax Qround Qabs Lqa.
From Stdlib Require Import NArith DecimalString.
Import ListNotations.

Open Scope string_scope.
Open Scope Q_scope.

(** ** Utility functions *)

Module Bucket.

(** [assign_aqi_bucket], lines 27-40: a chain of [<=] tests, first match
    wins, each branch returning a (label, marker) pair. *)
Definition assign_aqi_bucket (aqi : Q) : string * string :=
  if Qle_bool aqi 50 then ("Good", "🟢")
  else if Qle_bool aqi 100 then ("Satisfactory", "🟡")
  else if Qle_bool aqi 200 then ("Moderate", "🟠")
  else if Qle_bool aqi 300 then ("Poor", "🔴")
  else if Qle_bool aqi 400 then ("Very Poor", "🟣")
  else ("Severe", "⚫").

(** The six pairs of the six [return] statements, in source order. *)
Definition aqi_buckets : list (string * string) :=
  [ ("Good", "🟢"); ("Satisfactory", "🟡"); ("Moderate", "🟠");
    ("Poor", "🔴"); ("Very Poor", "🟣"); ("Severe", "⚫") ].

(** Strict comparison on [Q] as a boolean. *)
Definition Qlt_bool (x y : Q) : bool := negb (Qle_bool y x).

(** A band is a membership test.  [half_open lo hi] is the band
    (lo, hi] and [closed lo hi] the band [lo, hi]. *)
Definition band := Q -> bool.

Definition half_open (lo hi : Q) : band :=
  fun v => Qlt_bool lo v && Qle_bool v hi.

Definition closed (lo hi : Q) : band :=
  fun v => Qle_bool lo v && Qle_bool v hi.

(** The six bands in the specification's words:
    (0,50], (50,100], (100,200], (200,300], (300,400], (400,500]. *)
Definition spec_bands : list band :=
  [ half_open 0 50; half_open 50 100; half_open 100 200;
    half_open 200 300; half_open 300 400; half_open 400 500 ].

(** The bands the tests of [assign_aqi_bucket] cut out of [0, 500]:
    the first test [aqi <= 50] has no lower bound, so on [0, 500] the
    first band is closed at 0. *)
Definition code_bands : list band :=
  [ closed 0 50; half_open 50 100; half_open 100 200;
    half_open 200 300; half_open 300 400; half_open 400 500 ].

Definition member (bands : list band) (k : nat) (v : Q) : bool :=
  nth k bands (fun _ => false) v.

(** [v] lies in exactly one band of [bands], and that band carries the
    pair [assign_aqi_bucket] returns for [v]. *)
Definition in_exactly_one (bands : list band) (v : Q) : Prop :=
  exists k : nat,
    (k < 6)%nat /\
    member bands k v = true /\
    (forall j : nat, (j < 6)%nat -> member bands j v = true -> j = k) /\
    nth_error aqi_buckets k = Some (assign_aqi_bucket v).

End Bucket.

(** ** Calibration and clipping *)

Module Calibration.

(** [np.clip(a, a_min, a_max)] on a scalar: numpy documents it as
    [minimum(a_max, maximum(a, a_min))]. *)
Definition np_clip (a a_min a_max : Q) : Q :=
  Qmin a_max (Qmax a a_min).

(** Lines 142-145: the affine correction, then the clip to 0..500. *)
Definition calibrated_aqi (predicted_aqi : Q) : Q :=
  let calibrated_aqi := 1.05 * predicted_aqi + 10 in
  np_clip calibrated_aqi 0 500.

(** The clamp of the specification, in its words: values below the
    lower bound become the lower bound, values above the upper bound
    become the upper bound, the others are unchanged. *)
Definition spec_clamp (x lo hi : Q) : Q :=
  if Bucket.Qlt_bool x lo then lo
  else if Bucket.Qlt_bool hi x then hi
  else x.

End Calibration.

(** ** The script as a program with effects *)

Module App.

Import Bucket Calibration.

(** A Python exception of class [Exception] (or a subclass), carried
    with what [str(e)] prints. *)
Record exn : Type := Exception { exn_str : string }.

(** Results of Python calls that may raise. *)
Definition result (A : Type) : Type := (exn + A)%type.

(** A two-dimensional array of numbers, as [input_df.values]. *)
Definition matrix : Type := list (list Q).

(** What the script does with an unpickled object: it takes its truth
    value (line 52), calls [transform] (line 131) and calls [predict]
    (line 132).  Any of the three may raise: an object without the
    method raises [AttributeError]. *)
Record pyobj : Type := {
  py_bool : result bool;
  py_transform : matrix -> result matrix;
  py_predict : matrix -> result (list Q)
}.

Inductive pyval : Type :=
| PyNone
| PyObj (o : pyobj).

(** Everything a run of the script reads from outside: the files, the
    unpickler and the state of the widgets. *)
Record world : Type := {
  open_rb : string -> result (list Byte.byte);
  pickle_load : list Byte.byte -> result pyval;
  radio : string;
  number_input : string -> Q;
  button : bool
}.

(** The four module-level variables that hold the artifacts.  A
    reference to an artifact is the name of the variable it was loaded
    into: the four loads create four distinct objects. *)
Inductive name : Type :=
| model_with
| model_without
| scaler_with
| scaler_without.

Record globals : Type := {
  g_model_with : pyval;
  g_model_without : pyval;
  g_scaler_with : pyval;
  g_scaler_without : pyval
}.

Definition deref (g : globals) (n : name) : pyval :=
  match n with
  | model_with => g_model_with g
  | model_without => g_model_without g
  | scaler_with => g_scaler_with g
  | scaler_without => g_scaler_without g
  end.

(** What a run shows and does, in order: the Streamlit calls, and the
    method calls on the artifacts.  Of the page layout the events keep
    the column of each input field. *)
Inductive event : Type :=
| StPageConfig (page_title page_icon layout : string)
| StError (body : string)
| StTitle (body : string)
| StMarkdown (body : string)
| StRadio (label : string) (options : list string)
| StColumns (n : nat)
| StNumberInput (column : nat) (label : string) (min_value step : Q)
    (format : string)
| StButton (label : string)
| StMetric (label value : string)
| StInfo (body : string)
| StCaption (body : string)
| Call (callee : name) (method : string) (arg : matrix).

(** How a run, or a part of one, ends. [Stopped] is [st.stop()], which
    Streamlit implements with an exception outside the [Exception]
    hierarchy, so no [except Exception] catches it. *)
Inductive outcome (A : Type) : Type :=
| Ret (a : A)
| Stopped
| Raised (e : exn).

Arguments Ret {A} a.
Arguments Stopped {A}.
Arguments Raised {A} e.

Definition script (A : Type) : Type := (list event * outcome A)%type.

Definition ret {A : Type} (a : A) : script A := ([], Ret a).

Definition bind {A B : Type} (m : script A) (k : A -> script B) : script B :=
  match m with
  | (t, Ret a) => let (t', o) := k a in ((t ++ t')%list, o)
  | (t, Stopped) => (t, Stopped)
  | (t, Raised e) => (t, Raised e)
  end.

Definition emit (ev : event) : script unit := ([ev], Ret tt).

Definition lift {A : Type} (r : result A) : script A :=
  match r with
  | inl e => ([], Raised e)
  | inr a => ret a
  end.

Definition st_stop {A : Type} : script A := ([], Stopped).

(** [try: body except Exception as e: handler e]. *)
Definition try_except {A : Type} (body : script A) (handler : exn -> script A)
  : script A :=
  match body with
  | (t, Raised e) => let (t', o) := handler e in ((t ++ t')%list, o)
  | _ => body
  end.

Declare Scope script_scope.
Delimit Scope script_scope with script.
Notation "x <- m ;; k" := (bind m (fun x => k))
  (at level 61, m at next level, right associativity) : script_scope.
Notation "m ;; k" := (bind m (fun _ => k))
  (at level 61, right associativity) : script_scope.
Open Scope script_scope.

Definition nl : string := String "010"%char "".

(** *** Utility functions *)

(** The body of the [try] of [load_pickle], lines 21-22. *)
Definition read_pickle (w : world) (path : string) : result pyval :=
  match open_rb w path with
  | inl e => inl e
  | inr f => pickle_load w f
  end.

Definition load_error (path : string) (e : exn) : string :=
  "❌ Failed to load file: " ++ path ++ nl ++ "Error: " ++ exn_str e.

(** [load_pickle], lines 19-25. *)
Definition load_pickle (w : world) (path : string) : script pyval :=
  try_except
    (lift (read_pickle w path))
    (fun e => emit (StError (load_error path e)) ;; ret PyNone).

(** *** Load models and scalers *)

(** Truth value of a Python value: [None] is false. *)
Definition truth (v : pyval) : result bool :=
  match v with
  | PyNone => inr false
  | PyObj o => py_bool o
  end.

(** The builtin [all]: stops at the first false element. *)
Fixpoint py_all (l : list pyval) : script bool :=
  match l with
  | [] => ret true
  | v :: l' => b <- lift (truth v) ;; if b then py_all l' else ret false
  end.

Definition artifact_paths : list string :=
  [ "best_model_with_Xylene.pkl"; "best_model.pkl";
    "scaler_with.pkl"; "scaler_without.pkl" ].

(** Lines 9-13. *)
Definition page_config : event :=
  StPageConfig "AQI Prediction App" "🌫️" "centered".

(** Line 53. *)
Definition missing_files : event :=
  StError "❌ Missing model or scaler file(s). Please ensure all are present.".

(** Lines 9-54: page configuration, the four loads, the gate. *)
Definition startup (w : world) : script globals :=
  emit page_config ;;
  mw <- load_pickle w "best_model_with_Xylene.pkl" ;;
  mwo <- load_pickle w "best_model.pkl" ;;
  sw <- load_pickle w "scaler_with.pkl" ;;
  swo <- load_pickle w "scaler_without.pkl" ;;
  ok <- py_all [mw; mwo; sw; swo] ;;
  (if negb ok
   then emit missing_files ;; st_stop
   else ret tt) ;;
  ret {| g_model_with := mw; g_model_without := mwo;
         g_scaler_with := sw; g_scaler_without := swo |}.

(** *** Feature definitions *)

Definition features_without : list string :=
  [ "PM2.5"; "PM10"; "NO"; "NO2"; "NOx";
    "NH3"; "CO"; "SO2"; "O3"; "Benzene"; "Toluene" ].

Definition features_with : list string := features_without ++ ["Xylene"].

(** A [dict] with string keys: insertion order is kept, assigning to a
    key that is present replaces its value in place. *)
Definition dict (V : Type) : Type := list (string * V).

Fixpoint dict_set {V : Type} (d : dict V) (k : string) (v : V) : dict V :=
  match d with
  | [] => [(k, v)]
  | (k', v') :: d' =>
      if String.eqb k' k then (k', v) :: d' else (k', v') :: dict_set d' k v
  end.

Fixpoint dict_get {V : Type} (d : dict V) (k : string) : result V :=
  match d with
  | [] => inl (Exception ("'" ++ k ++ "'"))
  | (k', v') :: d' => if String.eqb k' k then inr v' else dict_get d' k
  end.

Definition units : dict string :=
  [ ("PM2.5", "µg/m³"); ("PM10", "µg/m³"); ("NO", "µg/m³");
    ("NO2", "µg/m³"); ("NOx", "µg/m³"); ("NH3", "µg/m³");
    ("CO", "mg/m³"); ("SO2", "µg/m³"); ("O3", "µg/m³");
    ("Benzene", "µg/m³"); ("Toluene", "µg/m³"); ("Xylene", "µg/m³") ].

(** *** App interface *)

Definition st_radio (w : world) (label : string) (options : list string)
  : script string :=
  emit (StRadio label options) ;; ret (radio w).

(** [st.number_input(label, min_value=.., step=.., format=..)] inside
    [with cols[column]].  The widget is identified by its label; it
    returns the number the user entered there. *)
Definition st_number_input (w : world) (column : nat) (label : string)
  (min_value step : Q) (format : string) : script Q :=
  emit (StNumberInput column label min_value step format) ;;
  ret (number_input w label).

Definition st_button (w : world) (label : string) : script bool :=
  emit (StButton label) ;; ret (button w).

Definition enumerate {A : Type} (l : list A) : list (nat * A) :=
  combine (seq 0 (length l)) l.

(** Line 103. *)
Definition selected_features (model_choice : string) : list string :=
  if String.eqb model_choice "With Xylene" then features_with else features_without.

(** The loop of lines 105-112, over the pairs of [enumerate]. *)
Fixpoint input_loop (w : world) (items : list (nat * string))
  (user_input : dict Q) : script (dict Q) :=
  match items with
  | [] => ret user_input
  | (i, feature) :: rest =>
      unit <- lift (dict_get units feature) ;;
      v <- st_number_input w (i mod 3) (feature ++ " (" ++ unit ++ ")")
             0.0 0.01 "%.2f" ;;
      input_loop w rest (dict_set user_input feature v)
  end.

(** [pd.DataFrame([user_input]).values]: one row, the values of the
    record in the order of its keys. *)
Definition input_df_values (user_input : dict Q) : matrix :=
  [map snd user_input].

(** Lines 86-112: title, mode selector and the input form. It returns
    [model_choice] and [user_input]. *)
Definition interface (w : world) : script (string * dict Q) :=
  emit (StTitle "🌫️ Air Quality Index (AQI) Prediction") ;;
  emit (StMarkdown (nl ++ "Enter pollutant concentrations below to predict the **Air Quality Index (AQI)** and its corresponding category." ++ nl)) ;;
  model_choice <- st_radio w "Choose Model Type:" ["With Xylene"; "Without Xylene"] ;;
  emit (StMarkdown "### 🧪 Enter Pollutant Levels") ;;
  emit (StColumns 3) ;;
  user_input <- input_loop w (enumerate (selected_features model_choice)) [] ;;
  ret (model_choice, user_input).

(** *** Prediction *)

(** Lines 122-127: the pair (model, scaler) for the chosen mode. *)
Definition select_artifacts (model_choice : string) : name * name :=
  if String.eqb model_choice "With Xylene"
  then (model_with, scaler_with)
  else (model_without, scaler_without).

Definition call_transform (g : globals) (scaler : name) (x : matrix)
  : script matrix :=
  emit (Call scaler "transform" x) ;;
  lift (match deref g scaler with
        | PyNone => inl (Exception "'NoneType' object has no attribute 'transform'")
        | PyObj o => py_transform o x
        end).

Definition call_predict (g : globals) (model : name) (x : matrix)
  : script (list Q) :=
  emit (Call model "predict" x) ;;
  lift (match deref g model with
        | PyNone => inl (Exception "'NoneType' object has no attribute 'predict'")
        | PyObj o => py_predict o x
        end).

(** Indexing with [[0]]. *)
Definition getitem0 (a : list Q) : result Q :=
  match a with
  | [] => inl (Exception "index 0 is out of bounds for axis 0 with size 0")
  | x :: _ => inr x
  end.

(** The body of the [try] of lines 131-132. *)
Definition attempt (g : globals) (model scaler : name) (input : matrix)
  : script Q :=
  input_scaled <- call_transform g scaler input ;;
  predictions <- call_predict g model input_scaled ;;
  lift (getitem0 predictions).

(** Rounding to the nearest integer, ties to even. *)
Definition round_half_even (q : Q) : Z :=
  let f := Qfloor q in
  match Qcompare (q - inject_Z f) (1 # 2) with
  | Lt => f
  | Gt => (f + 1)%Z
  | Eq => if Z.even f then f else (f + 1)%Z
  end.

Definition decimal (n : Z) : string :=
  DecimalString.NilZero.string_of_uint (N.to_uint (Z.to_N n)).

(** The format [.2f] of line 158, on the exact value: the nearest
    number with two decimals, ties to even. *)
Definition format_2f (x : Q) : string :=
  let n := round_half_even (Qabs x * 100) in
  let cents := (n mod 100)%Z in
  (if Qlt_bool x 0 then "-" else "") ++ decimal (n / 100) ++ "." ++
  (if (cents <? 10)%Z then "0" else "") ++ decimal cents.

Definition category_line (bucket emoji : string) : string :=
  "### " ++ emoji ++ " Air Quality Category: **" ++ bucket ++ "**".

Definition ranges_info : string :=
  nl ++ "**AQI Ranges:**" ++ nl ++ "- 0–50: Good  " ++ nl ++
  "- 51–100: Satisfactory  " ++ nl ++ "- 101–200: Moderate  " ++ nl ++
  "- 201–300: Poor  " ++ nl ++ "- 301–400: Very Poor  " ++ nl ++
  "- 401–500: Severe" ++ nl.

(** Lines 153-171: the results display. *)
Definition results_display (calibrated_aqi : Q) (bucket emoji : string)
  : script unit :=
  emit (StMarkdown "---") ;;
  emit (StMarkdown "## 🌡️ Predicted Results") ;;
  emit (StColumns 2) ;;
  emit (StMetric "Predicted AQI" (format_2f calibrated_aqi)) ;;
  emit (StMarkdown (category_line bucket emoji)) ;;
  emit (StInfo ranges_info).

(** Lines 119-171: what a press of the button runs. *)
Definition prediction (g : globals) (model_choice : string)
  (user_input : dict Q) : script unit :=
  let input_df := input_df_values user_input in
  let (model, scaler) := select_artifacts model_choice in
  predicted_aqi <-
    try_except
      (attempt g model scaler input_df)
      (fun e => emit (StError ("Prediction failed: " ++ exn_str e)) ;; st_stop) ;;
  let calibrated_aqi := calibrated_aqi predicted_aqi in
  let (bucket, emoji) := assign_aqi_bucket calibrated_aqi in
  results_display calibrated_aqi bucket emoji.

(** Lines 176-177. *)
Definition footer : script unit :=
  emit (StMarkdown "---") ;;
  emit (StCaption "Developed by [Your Name] | Powered by Streamlit & XGBoost 🌿").

(** One run of the script. *)
Definition main (w : world) : script unit :=
  g <- startup w ;;
  form <- interface w ;;
  pressed <- st_button w "🔍 Predict AQI" ;;
  (if pressed then prediction g (fst form) (snd form) else ret tt) ;;
  footer.

(** *** Observations on a trace *)

(** The names called, in order. *)
Fixpoint callees (t : list event) : list name :=
  match t with
  | [] => []
  | Call n _ _ :: t' => n :: callees t'
  | _ :: t' => callees t'
  end.

(** How many times [method] is called in [t]. *)
Fixpoint call_count (method : string) (t : list event) : nat :=
  match t with
  | [] => 0
  | Call _ m _ :: t' => (if String.eqb m method then 1 else 0) + call_count method t'
  | _ :: t' => call_count method t'
  end.

(** The events of the prediction interface: the mode selector, the
    input fields, the button, and anything a prediction does or shows. *)
Definition interface_event (ev : event) : bool :=
  match ev with
  | StRadio _ _ | StNumberInput _ _ _ _ _ | StButton _
  | StMetric _ _ | StInfo _ | Call _ _ _ => true
  | _ => false
  end.

(** The events of the results display. *)
Definition result_event (ev : event) : bool :=
  match ev with
  | StMetric _ _ | StInfo _ => true
  | StMarkdown body =>
      String.eqb body "---" || String.eqb body "## 🌡️ Predicted Results" ||
      existsb (fun p => String.eqb body (category_line (fst p) (snd p))) aqi_buckets
  | _ => false
  end.


(** What [load_pickle] leaves in the variable it is assigned to. *)
Definition loaded (w : world) (path : string) : pyval :=
  match read_pickle w path with
  | inl _ => PyNone
  | inr v => v
  end.

(** The error messages of the loads of [paths], in order. *)
Definition load_errors (w : world) (paths : list string) : list event :=
  flat_map
    (fun path =>
       match read_pickle w path with
       | inl e => [StError (load_error path e)]
       | inr _ => []
       end)
    paths.

(** The number entered in the field of [feature]. *)
Definition entered (w : world) (feature : string) : Q :=
  match dict_get units feature with
  | inl _ => 0
  | inr unit => number_input w (feature ++ " (" ++ unit ++ ")")
  end.

(** *** Sample worlds *)

(** A well-behaved artifact: it is true, its [transform] is the identity
    and its [predict] answers 90 for every row. *)
Definition sample_artifact : pyobj :=
  {| py_bool := inr true;
     py_transform := fun x => inr x;
     py_predict := fun _ => inr [90] |}.


(** A scaler whose [transform] rejects its input. *)
Definition failing_scaler : pyobj :=
  {| py_bool := inr true;
     py_transform := fun _ =>
       inl (Exception "X has 12 features, but StandardScaler is expecting 11 features as input.");
     py_predict := fun _ => inr [90] |}.

(** A world where the four artifacts load and every entry is 0. *)
Definition world_ok (model_choice : string) : world :=
  {| open_rb := fun _ => inr [];
     pickle_load := fun _ => inr (PyObj sample_artifact);
     radio := model_choice;
     number_input := fun _ => 0;
     button := true |}.

(** A world where the four artifacts load and [transform] raises. *)
Definition world_bad_scaler : world :=
  {| open_rb := fun _ => inr [];
     pickle_load := fun _ => inr (PyObj failing_scaler);
     radio := "With Xylene";
     number_input := fun _ => 0;
     button := true |}.

(** *** Further observations *)

(** Position of a (label, marker) pair in [aqi_buckets], the order of
    the [return] statements, from Good (0) to Severe (5); 6 for a pair
    that is not there. *)
Fixpoint position (p : string * string) (l : list (string * string)) : nat :=
  match l with
  | [] => 0
  | q :: l' =>
      if String.eqb (fst p) (fst q) && String.eqb (snd p) (snd q)
      then 0
      else S (position p l')
  end.

Definition severity (p : string * string) : nat := position p aqi_buckets.

(** The label of the field of [feature], line 108. *)
Definition field_label (feature : string) : string :=
  match dict_get units feature with
  | inl _ => feature
  | inr unit => feature ++ " (" ++ unit ++ ")"
  end.

(** The field the loop shows for the pair [(i, feature)] of
    [enumerate]. *)
Definition field (item : nat * string) : event :=
  StNumberInput (fst item mod 3) (field_label (snd item)) 0.0 0.01 "%.2f".

(** The entry the loop stores for the pair [(i, feature)]. *)
Definition entry (w : world) (item : nat * string) : string * Q :=
  (snd item, entered w (snd item)).

Definition is_caption (ev : event) : bool :=
  match ev with
  | StCaption _ => true
  | _ => false
  end.


(** A model whose [predict] answers an empty array. *)
Definition empty_model : pyobj :=
  {| py_bool := inr true;
     py_transform := fun x => inr x;
     py_predict := fun _ => inr [] |}.

Definition world_empty_prediction : world :=
  {| open_rb := fun _ => inr [];
     pickle_load := fun _ => inr (PyObj empty_model);
     radio := "Without Xylene";
     number_input := fun _ => 0;
     button := true |}.

(** An object whose truth test raises, as an array of several
    elements does. *)
Definition ambiguous : pyobj :=
  {| py_bool := inl (Exception "The truth value of an array with more than one element is ambiguous. Use a.any() or a.all()");
     py_transform := fun x => inr x;
     py_predict := fun _ => inr [90] |}.

Definition world_ambiguous : world :=
  {| open_rb := fun _ => inr [];
     pickle_load := fun _ => inr (PyObj ambiguous);
     radio := "With Xylene";
     number_input := fun _ => 0;
     button := true |}.

(** The world of [world_ok] with the button left alone. *)
Definition world_idle : world :=
  {| open_rb := fun _ => inr [];
     pickle_load := fun _ => inr (PyObj sample_artifact);
     radio := "With Xylene";
     number_input := fun _ => 0;
     button := false |}.

(** The file each artifact variable is loaded from, lines 46-50. *)
Definition path_of (n : name) : string :=
  match n with
  | model_with => "best_model_with_Xylene.pkl"
  | model_without => "best_model.pkl"
  | scaler_with => "scaler_with.pkl"
  | scaler_without => "scaler_without.pkl"
  end.

(** *** The loader under every exception *)








End App.

(** ** Values that are not real numbers *)

Module Extended.

Import Bucket Calibration.

(** A floating-point value as far as order goes: a real number, an
    infinity, or NaN. *)
Inductive number : Type :=
| Real (q : Q)
| PosInf
| NegInf
| NaN.

(** [1.05 * x + 10]. *)
Definition affine (x : number) : number :=
  match x with
  | Real r => Real (1.05 * r + 10)
  | PosInf => PosInf
  | NegInf => NegInf
  | NaN => NaN
  end.

(** [np.clip(a, a_min, a_max)] with real bounds: NaN passes through. *)
Definition np_clip_number (a : number) (a_min a_max : Q) : number :=
  match a with
  | Real r => Real (np_clip r a_min a_max)
  | PosInf => Real a_max
  | NegInf => Real (Qmin a_max a_min)
  | NaN => NaN
  end.

(** [x <= c] for a real [c]: false when [x] is NaN. *)
Definition le_number (x : number) (c : Q) : bool :=
  match x with
  | Real r => Qle_bool r c
  | PosInf => false
  | NegInf => true
  | NaN => false
  end.

(** Lines 142-145 on such values. *)
Definition calibrated_number (predicted_aqi : number) : number :=
  np_clip_number (affine predicted_aqi) 0 500.

(** [assign_aqi_bucket], lines 27-40, on such values. *)
Definition assign_number_bucket (aqi : number) : string * string :=
  if le_number aqi 50 then ("Good", "🟢")
  else if le_number aqi 100 then ("Satisfactory", "🟡")
  else if le_number aqi 200 then ("Moderate", "🟠")
  else if le_number aqi 300 then ("Poor", "🔴")
  else if le_number aqi 400 then ("Very Poor", "🟣")
  else ("Severe", "⚫").

End Extended.

(** * Properties *)

Import Bucket Calibration App.

(** ** Comparisons as propositions *)

Lemma Qle_bool_false (x y : Q) : Qle_bool x y = false <-> y < x.
Proof.
  split; intro H.
  - apply Qnot_le_lt. intro L. apply Qle_bool_iff in L. congruence.
  - destruct (Qle_bool x y) eqn:E; [ | reflexivity ].
    apply Qle_bool_iff in E. lra.
Qed.

Lemma Qlt_bool_iff (x y : Q) : Qlt_bool x y = true <-> x < y.
Proof.
  unfold Qlt_bool. rewrite negb_true_iff. apply Qle_bool_false.
Qed.

Lemma Qlt_bool_false (x y : Q) : Qlt_bool x y = false <-> y <= x.
Proof.
  unfold Qlt_bool. rewrite negb_false_iff. apply Qle_bool_iff.
Qed.

Lemma half_open_iff (lo hi v : Q) : half_open lo hi v = true <-> lo < v <= hi.
Proof.
  unfold half_open. rewrite andb_true_iff, Qlt_bool_iff, Qle_bool_iff. tauto.
Qed.

Lemma closed_iff (lo hi v : Q) : closed lo hi v = true <-> lo <= v <= hi.
Proof.
  unfold closed. rewrite andb_true_iff, !Qle_bool_iff. tauto.
Qed.

(** Case analysis on a boolean comparison, leaving the inequality. *)
Ltac split_le x y :=
  let E := fresh "E" in
  destruct (Qle_bool x y) eqn:E;
  [ apply Qle_bool_iff in E | apply Qle_bool_false in E ].

(** ** The bucket classifier *)

(** The branch [assign_aqi_bucket] takes, by the position of its
    argument. *)
Lemma assign_aqi_bucket_cases (aqi : Q) :
  (aqi <= 50 /\ assign_aqi_bucket aqi = ("Good", "🟢")) \/
  (50 < aqi <= 100 /\ assign_aqi_bucket aqi = ("Satisfactory", "🟡")) \/
  (100 < aqi <= 200 /\ assign_aqi_bucket aqi = ("Moderate", "🟠")) \/
  (200 < aqi <= 300 /\ assign_aqi_bucket aqi = ("Poor", "🔴")) \/
  (300 < aqi <= 400 /\ assign_aqi_bucket aqi = ("Very Poor", "🟣")) \/
  (400 < aqi /\ assign_aqi_bucket aqi = ("Severe", "⚫")).
Proof.
  unfold assign_aqi_bucket.
  split_le aqi 50; [ tauto | ].
  split_le aqi 100; [ tauto | ].
  split_le aqi 200; [ tauto | ].
  split_le aqi 300; [ tauto | ].
  split_le aqi 400; tauto.
Qed.

(** C2. The boundaries are inclusive on the upper edge: 50.0 is Good,
    50.01 is Satisfactory, 100.0 is Satisfactory, 100.01 is Moderate,
    500.0 is Severe, and 0.0, which is what clipping turns a negative
    calibrated value such as -5.0 into, is Good. *)
Theorem bucket_boundaries :
  fst (assign_aqi_bucket 50.0) = "Good" /\
  fst (assign_aqi_bucket 50.01) = "Satisfactory" /\
  fst (assign_aqi_bucket 100.0) = "Satisfactory" /\
  fst (assign_aqi_bucket 100.01) = "Moderate" /\
  fst (assign_aqi_bucket 500.0) = "Severe" /\
  fst (assign_aqi_bucket 0.0) = "Good" /\
  np_clip (-5.0) 0 500 == 0.0 /\
  fst (assign_aqi_bucket (np_clip (-5.0) 0 500)) = "Good".
Proof.
  repeat split; reflexivity.
Qed.

(** C9. [assign_aqi_bucket] is total over all numbers, clipped or not:
    it returns one of the six fixed, pairwise distinct (label, marker)
    pairs; every value up to 50, negative ones included, gives
    ("Good", "🟢") and every value above 400, those above 500 included,
    gives ("Severe", "⚫"). *)
Theorem assign_aqi_bucket_total (aqi : Q) :
  In (assign_aqi_bucket aqi) aqi_buckets /\
  length aqi_buckets = 6%nat /\
  NoDup aqi_buckets /\
  (aqi <= 50 -> assign_aqi_bucket aqi = ("Good", "🟢")) /\
  (400 < aqi -> assign_aqi_bucket aqi = ("Severe", "⚫")).
Proof.
  split; [ | split; [ reflexivity | split; [ | split ] ] ].
  - destruct (assign_aqi_bucket_cases aqi)
      as [[_ E] | [[_ E] | [[_ E] | [[_ E] | [[_ E] | [_ E]]]]]];
      rewrite E; simpl; tauto.
  - unfold aqi_buckets.
    repeat (constructor; [ simpl; intuition discriminate | ]).
    constructor.
  - intro H.
    destruct (assign_aqi_bucket_cases aqi)
      as [[_ E] | [[L _] | [[L _] | [[L _] | [[L _] | [L _]]]]]];
      [ exact E | lra .. ].
  - intro H.
    destruct (assign_aqi_bucket_cases aqi)
      as [[L _] | [[L _] | [[L _] | [[L _] | [[L _] | [_ E]]]]]];
      [ lra .. | exact E ].
Qed.

Lemma assign_aqi_bucket_total_witness :
  assign_aqi_bucket (-7) = ("Good", "🟢") /\
  assign_aqi_bucket 1000 = ("Severe", "⚫").
Proof.
  split.
  - apply (proj1 (proj2 (proj2 (proj2 (assign_aqi_bucket_total (-7)))))).
    unfold Qle; simpl; lia.
  - apply (proj2 (proj2 (proj2 (proj2 (assign_aqi_bucket_total 1000))))).
    unfold Qlt; simpl; lia.
Defined.

(** ** The bands *)

(** Membership in the bands of the specification, as inequalities. *)
Lemma member_spec_bands (j : nat) (v : Q) :
  member spec_bands j v = true ->
  (j = 0%nat /\ 0 < v <= 50) \/ (j = 1%nat /\ 50 < v <= 100) \/
  (j = 2%nat /\ 100 < v <= 200) \/ (j = 3%nat /\ 200 < v <= 300) \/
  (j = 4%nat /\ 300 < v <= 400) \/ (j = 5%nat /\ 400 < v <= 500).
Proof.
  unfold member, spec_bands.
  do 6 (destruct j as [ | j ];
        [ simpl; rewrite half_open_iff; intro H; tauto | ]).
  destruct j; simpl; discriminate.
Qed.

(** Membership in the bands the code cuts out of [0, 500]. *)
Lemma member_code_bands (j : nat) (v : Q) :
  member code_bands j v = true ->
  (j = 0%nat /\ 0 <= v <= 50) \/ (j = 1%nat /\ 50 < v <= 100) \/
  (j = 2%nat /\ 100 < v <= 200) \/ (j = 3%nat /\ 200 < v <= 300) \/
  (j = 4%nat /\ 300 < v <= 400) \/ (j = 5%nat /\ 400 < v <= 500).
Proof.
  unfold member, code_bands.
  destruct j as [ | j ]; [ simpl; rewrite closed_iff; intro H; tauto | ].
  do 5 (destruct j as [ | j ];
        [ simpl; rewrite half_open_iff; intro H; tauto | ]).
  destruct j; simpl; discriminate.
Qed.

(** Closes the goal [j = k] from a hypothesis that [v] is in band [j]
    and the inequalities that place [v] in band [k]. *)
Ltac other_band H :=
  apply member_code_bands in H;
  destruct H as [[-> H] | [[-> H] | [[-> H] | [[-> H] | [[-> H] | [-> H]]]]]];
  solve [ reflexivity | exfalso; lra ].

(** C3, as stated, fails at 0: the value 0 is in the range [0, 500] and
    in none of (0,50], (50,100], (100,200], (200,300], (300,400],
    (400,500], while the code classifies it as Good. *)
Lemma spec_bands_miss_zero :
  0 <= 0 <= 500 /\
  ~ in_exactly_one spec_bands 0 /\
  assign_aqi_bucket 0 = ("Good", "🟢").
Proof.
  split; [ lra | split; [ | reflexivity ] ].
  intros [k [_ [M _]]].
  apply member_spec_bands in M. lra.
Qed.

(** C3, amended. With the first band closed at 0, the six bands
    [0,50], (50,100], (100,200], (200,300], (300,400], (400,500] cover
    [0, 500] with no gaps and no overlaps: every value of that range is
    in exactly one of them, and it is the band whose (label, marker)
    pair [assign_aqi_bucket] returns. *)
Theorem code_bands_partition (v : Q) :
  0 <= v <= 500 -> in_exactly_one code_bands v.
Proof.
  intros [L U]. unfold in_exactly_one.
  destruct (assign_aqi_bucket_cases v)
    as [[B E] | [[B E] | [[B E] | [[B E] | [[B E] | [B E]]]]]]; rewrite E.
  - exists 0%nat. split; [ lia | split; [ | split; [ | reflexivity ] ] ].
    + apply closed_iff. lra.
    + intros j _ M. other_band M.
  - exists 1%nat. split; [ lia | split; [ | split; [ | reflexivity ] ] ].
    + apply half_open_iff. lra.
    + intros j _ M. other_band M.
  - exists 2%nat. split; [ lia | split; [ | split; [ | reflexivity ] ] ].
    + apply half_open_iff. lra.
    + intros j _ M. other_band M.
  - exists 3%nat. split; [ lia | split; [ | split; [ | reflexivity ] ] ].
    + apply half_open_iff. lra.
    + intros j _ M. other_band M.
  - exists 4%nat. split; [ lia | split; [ | split; [ | reflexivity ] ] ].
    + apply half_open_iff. lra.
    + intros j _ M. other_band M.
  - exists 5%nat. split; [ lia | split; [ | split; [ | reflexivity ] ] ].
    + apply half_open_iff. lra.
    + intros j _ M. other_band M.
Qed.

Lemma code_bands_partition_witness :
  0 <= 0 <= 500 /\ in_exactly_one code_bands 0.
Proof.
  assert (R : 0 <= 0 <= 500) by (split; unfold Qle; simpl; lia).
  split; [ exact R | exact (code_bands_partition 0 R) ].
Defined.

(** ** Calibration *)

(** C1. The calibration step is the clamp of [1.05 * r + 10] to
    [0, 500]: below 0 it gives 0, above 500 it gives 500, and in between
    the value is unchanged. *)
Theorem calibrated_aqi_clamp (r : Q) :
  calibrated_aqi r == spec_clamp (1.05 * r + 10) 0 500 /\
  (1.05 * r + 10 < 0 -> calibrated_aqi r == 0) /\
  (500 < 1.05 * r + 10 -> calibrated_aqi r == 500) /\
  (0 <= 1.05 * r + 10 <= 500 -> calibrated_aqi r == 1.05 * r + 10).
Proof.
  unfold calibrated_aqi, np_clip, spec_clamp.
  set (c := 1.05 * r + 10).
  destruct (Q.max_spec c 0) as [[M1 M2] | [M1 M2]];
    destruct (Q.min_spec 500 (Qmax c 0)) as [[N1 N2] | [N1 N2]];
    (split; [ | repeat split; intros; lra ]).
  - exfalso; lra.
  - destruct (Qlt_bool c 0) eqn:A;
      [ lra | apply Qlt_bool_false in A; lra ].
  - destruct (Qlt_bool c 0) eqn:A; [ apply Qlt_bool_iff in A; lra | ].
    destruct (Qlt_bool 500 c) eqn:B;
      [ lra | apply Qlt_bool_false in B; lra ].
  - destruct (Qlt_bool c 0) eqn:A; [ apply Qlt_bool_iff in A; lra | ].
    destruct (Qlt_bool 500 c) eqn:B;
      [ apply Qlt_bool_iff in B; lra | lra ].
Qed.

Lemma calibrated_aqi_clamp_witness :
  calibrated_aqi (-100) == 0 /\
  calibrated_aqi 1000 == 500 /\
  calibrated_aqi 90 == 1.05 * 90 + 10.
Proof.
  split; [ | split ].
  - apply (proj1 (proj2 (calibrated_aqi_clamp (-100)))).
    unfold Qlt; simpl; lia.
  - apply (proj1 (proj2 (proj2 (calibrated_aqi_clamp 1000)))).
    unfold Qlt; simpl; lia.
  - apply (proj2 (proj2 (proj2 (calibrated_aqi_clamp 90)))).
    split; unfold Qle; simpl; lia.
Defined.

(** C8. The calibration is monotonic non-decreasing. *)
Theorem calibrated_aqi_monotone (r1 r2 : Q) :
  r1 <= r2 -> calibrated_aqi r1 <= calibrated_aqi r2.
Proof.
  intro H. unfold calibrated_aqi, np_clip.
  apply Q.min_le_compat_l, Q.max_le_compat_r. lra.
Qed.

Lemma calibrated_aqi_monotone_witness :
  -100 <= 90 /\ calibrated_aqi (-100) <= calibrated_aqi 90.
Proof.
  assert (H : -100 <= 90) by (unfold Qle; simpl; lia).
  split; [ exact H | exact (calibrated_aqi_monotone (-100) 90 H) ].
Defined.

(** ** Traces *)

Lemma callees_app (t1 t2 : list event) :
  callees (t1 ++ t2) = (callees t1 ++ callees t2)%list.
Proof.
  induction t1 as [ | ev t1 IH ]; [ reflexivity | ].
  destruct ev; simpl; rewrite IH; reflexivity.
Qed.

Lemma call_count_app (method : string) (t1 t2 : list event) :
  call_count method (t1 ++ t2) = (call_count method t1 + call_count method t2)%nat.
Proof.
  induction t1 as [ | ev t1 IH ]; [ reflexivity | ].
  destruct ev; simpl; rewrite IH; lia.
Qed.





(** ** Loading the artifacts *)

Lemma load_pickle_eq (w : world) (path : string) :
  load_pickle w path = (load_errors w [path], Ret (loaded w path)).
Proof.
  unfold load_pickle, loaded, load_errors. simpl.
  destruct (read_pickle w path) as [e | v]; reflexivity.
Qed.



(** [all] shows nothing; it answers true only when no element is
    [None]. *)
Lemma py_all_shape (l : list pyval) :
  (py_all l = ([], Ret true) /\ ~ In PyNone l) \/
  py_all l = ([], Ret false) \/
  (exists e : exn, py_all l = ([], Raised e)).
Proof.
  induction l as [ | v l IH ]; simpl.
  - left. split; [ reflexivity | tauto ].
  - destruct v as [ | o ]; simpl.
    + right. left. reflexivity.
    + destruct (py_bool o) as [e | [ | ]]; simpl.
      * right. right. exists e. reflexivity.
      * destruct IH as [[E N] | [E | [e E]]]; rewrite E; simpl.
        -- left. split; [ reflexivity | ].
           intros [C | C]; [ discriminate | tauto ].
        -- right. left. reflexivity.
        -- right. right. exists e. reflexivity.
      * right. left. reflexivity.
Qed.

(** The three ways the start of the script ends: the gate passes and
    the four artifacts are all loaded; the gate stops the script; or a
    truth test of the gate raises. *)
Lemma startup_cases (w : world) :
  let errors := load_errors w artifact_paths in
  let values := map (loaded w) artifact_paths in
  (~ In PyNone values /\ errors = [] /\
   startup w =
     ([page_config],
      Ret {| g_model_with := loaded w "best_model_with_Xylene.pkl";
             g_model_without := loaded w "best_model.pkl";
             g_scaler_with := loaded w "scaler_with.pkl";
             g_scaler_without := loaded w "scaler_without.pkl" |})) \/
  startup w = ((page_config :: errors) ++ [missing_files], Stopped)%list \/
  (exists e : exn, startup w = (page_config :: errors, Raised e)).
Proof.
  intros errors values.
  assert (S : forall o,
    py_all values = ([], o) ->
    startup w =
      match o with
      | Ret true =>
          (page_config :: errors,
           Ret {| g_model_with := loaded w "best_model_with_Xylene.pkl";
                  g_model_without := loaded w "best_model.pkl";
                  g_scaler_with := loaded w "scaler_with.pkl";
                  g_scaler_without := loaded w "scaler_without.pkl" |})
      | Ret false => ((page_config :: errors) ++ [missing_files], Stopped)%list
      | Stopped => (page_config :: errors, Stopped)
      | Raised e => (page_config :: errors, Raised e)
      end).
  { intros o E. unfold startup. rewrite !load_pickle_eq.
    unfold values, artifact_paths in E. simpl map in E.
    cbn [bind emit]. rewrite E.
    unfold errors, artifact_paths, load_errors. simpl flat_map.
    rewrite !app_nil_r.
    destruct o as [[ | ] | | e]; simpl; rewrite ?app_nil_r, <- ?app_assoc;
      reflexivity. }
  destruct (py_all_shape values) as [[E N] | [E | [e E]]].
  - left. split; [ exact N | ].
    assert (Z : errors = []).
    { unfold errors, load_errors, artifact_paths. simpl flat_map.
      unfold values, artifact_paths, loaded in N. simpl map in N.
      destruct (read_pickle w "best_model_with_Xylene.pkl");
        [ exfalso; apply N; simpl; tauto | ].
      destruct (read_pickle w "best_model.pkl");
        [ exfalso; apply N; simpl; tauto | ].
      destruct (read_pickle w "scaler_with.pkl");
        [ exfalso; apply N; simpl; tauto | ].
      destruct (read_pickle w "scaler_without.pkl");
        [ exfalso; apply N; simpl; tauto | ].
      reflexivity. }
    split; [ exact Z | ].
    rewrite (S _ E), Z. reflexivity.
  - right. left. rewrite (S _ E). reflexivity.
  - right. right. exists e. rewrite (S _ E). reflexivity.
Qed.


Lemma load_errors_quiet (w : world) (paths : list string) (p : event -> bool) :
  (forall body : string, p (StError body) = true) ->
  forallb p (load_errors w paths) = true.
Proof.
  intro P. unfold load_errors.
  induction paths as [ | path paths IH ]; [ reflexivity | ].
  simpl. rewrite forallb_app, IH, andb_true_r.
  destruct (read_pickle w path); simpl; [ rewrite P | ]; reflexivity.
Qed.



(** ** The input form *)

(** The form always completes: it shows no result and calls no
    artifact, and it returns the mode and, for each feature of the
    mode's schema in order, the number entered in its field. *)
Lemma interface_shape (w : world) :
  exists t : list event,
    interface w =
      (t, Ret (radio w,
               map (fun f => (f, entered w f)) (selected_features (radio w)))) /\
    callees t = [] /\
    (forall method : string, call_count method t = 0%nat) /\
    forallb (fun ev => negb (result_event ev)) t = true.
Proof.
  unfold interface, st_radio, selected_features.
  cbn [bind emit ret].
  destruct (String.eqb (radio w) "With Xylene");
    eexists; (split; [ cbv; reflexivity | ]);
    (split; [ reflexivity | split; [ intro; reflexivity | reflexivity ] ]).
Qed.

(** C5. The schema without Xylene has 11 names in a fixed order, the
    schema with Xylene is that list with Xylene appended, 12 names with
    Xylene the 12th; whatever the mode, the input loop completes, the
    keys of [user_input] are the names of the mode's schema in schema
    order, and the one row handed on holds, in that order, the numbers
    entered in their fields. *)
Theorem feature_vector_schema (w : world) (model_choice : string) :
  length features_without = 11%nat /\
  features_with = (features_without ++ ["Xylene"])%list /\
  length features_with = 12%nat /\
  nth_error features_with 11 = Some "Xylene" /\
  NoDup features_with /\
  selected_features "With Xylene" = features_with /\
  selected_features "Without Xylene" = features_without /\
  (exists (t : list event) (user_input : dict Q),
     input_loop w (enumerate (selected_features model_choice)) [] =
       (t, Ret user_input) /\
     map fst user_input = selected_features model_choice /\
     length user_input = length (selected_features model_choice) /\
     input_df_values user_input =
       [map (entered w) (selected_features model_choice)]).
Proof.
  do 4 (split; [ reflexivity | ]).
  split.
  { unfold features_with, features_without. simpl app.
    repeat (constructor; [ simpl; intuition discriminate | ]).
    constructor. }
  do 2 (split; [ reflexivity | ]).
  unfold selected_features.
  destruct (String.eqb model_choice "With Xylene");
    eexists; eexists; (split; [ cbv; reflexivity | ]);
    repeat split; reflexivity.
Qed.

(** ** Prediction *)

(** The body of the [try] calls [transform] on the scaler once, then,
    if that returned, [predict] on the model once; it never stops the
    script by itself. *)
Lemma attempt_shape (g : globals) (model scaler : name) (x : matrix) :
  exists (tb : list event) (o : outcome Q),
    attempt g model scaler x = (tb, o) /\
    o <> Stopped /\
    (tb = [Call scaler "transform" x] \/
     exists y : matrix,
       tb = [Call scaler "transform" x; Call model "predict" y]).
Proof.
  unfold attempt, call_transform, call_predict.
  cbn [bind emit].
  destruct (match deref g scaler with
            | PyNone => _
            | PyObj o => py_transform o x
            end) as [e | y]; cbn [lift bind ret app].
  - eexists; eexists. split; [ reflexivity | ].
    split; [ discriminate | left; reflexivity ].
  - destruct (match deref g model with
              | PyNone => _
              | PyObj o => py_predict o y
              end) as [e | p]; cbn [lift bind ret app].
    + eexists; eexists. split; [ reflexivity | ].
      split; [ discriminate | right; exists y; reflexivity ].
    + destruct p as [ | r p ]; cbn [getitem0 lift bind ret app];
        eexists; eexists; (split; [ reflexivity | ]);
        (split; [ discriminate | right; exists y; reflexivity ]).
Qed.



(** The run of the script once the gate has passed and the form is
    drawn. *)
Lemma main_after_form (w : world) (g : globals) (t0 t1 : list event)
  (form : string * dict Q) :
  startup w = (t0, Ret g) ->
  interface w = (t1, Ret form) ->
  main w =
    bind (t0 ++ t1 ++ [StButton "🔍 Predict AQI"], Ret tt)%list
      (fun _ =>
         (if button w then prediction g (fst form) (snd form) else ret tt) ;;
         footer).
Proof.
  intros S I. unfold main. rewrite S. cbn [bind]. rewrite I.
  unfold st_button. cbn [bind emit ret].
  destruct (bind (if button w then _ else _) _) as [t o].
  rewrite app_nil_r, <- !app_assoc. reflexivity.
Qed.

(** When the gate passes, the start of the script has shown the page
    configuration only. *)
Lemma startup_ret (w : world) (t0 : list event) (g : globals) :
  startup w = (t0, Ret g) -> t0 = [page_config].
Proof.
  intro S.
  destruct (startup_cases w) as [[_ [_ E]] | [E | [e E]]];
    rewrite E in S; [ | discriminate .. ].
  injection S as <- _. reflexivity.
Qed.



(** ** Mode isolation *)


Lemma entered_row (w : world) (features : list string) :
  input_df_values (map (fun f => (f, entered w f)) features) =
  [map (entered w) features].
Proof.
  unfold input_df_values. rewrite map_map. reflexivity.
Qed.





(** ** End-to-end runs *)

(** All entries 0 in the mode without Xylene, a model that answers 90:
    the run calls the pair of that mode on a row of 11 zeros and shows
    104.50, Moderate. *)
Example run_without_xylene :
  let t := fst (main (world_ok "Without Xylene")) in
  snd (main (world_ok "Without Xylene")) = Ret tt /\
  In (Call scaler_without "transform" [repeat 0 11]) t /\
  In (Call model_without "predict" [repeat 0 11]) t /\
  In (StMetric "Predicted AQI" "104.50") t /\
  In (StMarkdown "### 🟠 Air Quality Category: **Moderate**") t.
Proof.
  cbv zeta. repeat split; vm_compute; tauto.
Qed.

(** Raw predictions 1000 and -100 end at the two ends of the range. *)
Example calibration_extremes :
  calibrated_aqi 1000 == 500 /\
  fst (assign_aqi_bucket (calibrated_aqi 1000)) = "Severe" /\
  calibrated_aqi (-100) == 0 /\
  fst (assign_aqi_bucket (calibrated_aqi (-100))) = "Good".
Proof.
  repeat split; reflexivity.
Qed.

(** * Further properties of the script *)

(** ** Calibration and buckets *)

(** Lines 142-145 on real numbers, infinities and NaN. For a real or
    infinite raw prediction the calibrated value is a real number in
    [0, 500], the one [calibrated_aqi] gives for a real prediction. A
    NaN prediction stays NaN through the affine map and the clip, and
    as every comparison with NaN is false, [assign_aqi_bucket] answers
    Severe for it. *)
Theorem calibrated_range_unless_nan (x : Extended.number) :
  match Extended.calibrated_number x with
  | Extended.Real c => 0 <= c <= 500 /\ x <> Extended.NaN
  | Extended.NaN => x = Extended.NaN
  | _ => False
  end /\
  (forall r : Q,
     Extended.calibrated_number (Extended.Real r) =
       Extended.Real (calibrated_aqi r) /\
     Extended.assign_number_bucket (Extended.Real r) = assign_aqi_bucket r) /\
  Extended.assign_number_bucket (Extended.calibrated_number Extended.NaN) =
    ("Severe", "⚫").
Proof.
  split; [ | split; [ intro r; split; reflexivity | reflexivity ] ].
  destruct x as [r | | | ]; cbn.
  - split; [ | discriminate ].
    unfold np_clip. split.
    + apply Q.min_glb; [ lra | apply Q.le_max_r ].
    + apply Q.le_min_l.
  - split; [ split; unfold Qle; simpl; lia | discriminate ].
  - split; [ split; unfold Qle; simpl; lia | discriminate ].
  - reflexivity.
Qed.

(** The calibration is an upward correction, as its comment says,
    exactly for the raw predictions up to 500: there the shown value is
    never below the raw one, and above 500 the clip brings it below. *)
Theorem calibration_upward (r : Q) :
  r <= calibrated_aqi r <-> r <= 500.
Proof.
  unfold calibrated_aqi, np_clip. split.
  - intro H. apply Qle_trans with (1 := H). apply Q.le_min_l.
  - intro U. apply Q.min_glb; [ exact U | ].
    apply Q.max_le_iff.
    destruct (Qlt_le_dec r 0); [ right | left ]; lra.
Qed.

Lemma calibration_upward_witness :
  90 <= calibrated_aqi 90 /\ -1000 <= calibrated_aqi (-1000).
Proof.
  split.
  - apply (proj2 (calibration_upward 90)). unfold Qle; simpl; lia.
  - apply (proj2 (calibration_upward (-1000))). unfold Qle; simpl; lia.
Defined.

(** The severity of the bucket, by the position of the value. *)
Lemma severity_cases (aqi : Q) :
  (aqi <= 50 /\ severity (assign_aqi_bucket aqi) = 0%nat) \/
  (50 < aqi <= 100 /\ severity (assign_aqi_bucket aqi) = 1%nat) \/
  (100 < aqi <= 200 /\ severity (assign_aqi_bucket aqi) = 2%nat) \/
  (200 < aqi <= 300 /\ severity (assign_aqi_bucket aqi) = 3%nat) \/
  (300 < aqi <= 400 /\ severity (assign_aqi_bucket aqi) = 4%nat) \/
  (400 < aqi /\ severity (assign_aqi_bucket aqi) = 5%nat).
Proof.
  destruct (assign_aqi_bucket_cases aqi)
    as [[B E] | [[B E] | [[B E] | [[B E] | [[B E] | [B E]]]]]];
    rewrite E; tauto.
Qed.

(** Compares the severities of the buckets of [a] and [b] case by
    case, from an inequality between [a] and [b] in the context. *)
Ltac by_severity a b :=
  destruct (severity_cases a)
    as [[? ->] | [[? ->] | [[? ->] | [[? ->] | [[? ->] | [? ->]]]]]];
  destruct (severity_cases b)
    as [[? ->] | [[? ->] | [[? ->] | [[? ->] | [[? ->] | [? ->]]]]]];
  solve [ lia | exfalso; lra ].

(** A larger AQI value never gets a milder bucket. *)
Theorem assign_aqi_bucket_monotone (a b : Q) :
  a <= b ->
  (severity (assign_aqi_bucket a) <= severity (assign_aqi_bucket b))%nat.
Proof.
  intro H. by_severity a b.
Qed.

Lemma assign_aqi_bucket_monotone_witness :
  (severity (assign_aqi_bucket 50) <= severity (assign_aqi_bucket 50.01))%nat.
Proof.
  apply assign_aqi_bucket_monotone. unfold Qle; simpl; lia.
Defined.

(** A larger raw prediction never gets a milder category: calibration,
    clip and classification composed are monotone. *)
Theorem category_monotone (r1 r2 : Q) :
  r1 <= r2 ->
  (severity (assign_aqi_bucket (calibrated_aqi r1)) <=
   severity (assign_aqi_bucket (calibrated_aqi r2)))%nat.
Proof.
  intro H.
  assert (C : calibrated_aqi r1 <= calibrated_aqi r2).
  { unfold calibrated_aqi, np_clip.
    apply Q.min_le_compat_l, Q.max_le_compat_r. lra. }
  by_severity (calibrated_aqi r1) (calibrated_aqi r2).
Qed.

Lemma category_monotone_witness :
  (severity (assign_aqi_bucket (calibrated_aqi (-100))) <=
   severity (assign_aqi_bucket (calibrated_aqi 90)))%nat.
Proof.
  apply category_monotone. unfold Qle; simpl; lia.
Defined.

(** No branch of [assign_aqi_bucket] is dead behind the calibration:
    each of the six pairs is the category of some raw prediction. *)
Theorem every_bucket_reachable (p : string * string) :
  In p aqi_buckets ->
  exists r : Q, assign_aqi_bucket (calibrated_aqi r) = p.
Proof.
  intro H. simpl in H.
  destruct H as [<- | [<- | [<- | [<- | [<- | [<- | []]]]]]].
  - exists 0. reflexivity.
  - exists 50. reflexivity.
  - exists 100. reflexivity.
  - exists 200. reflexivity.
  - exists 300. reflexivity.
  - exists 400. reflexivity.
Qed.

Lemma every_bucket_reachable_witness :
  exists r : Q, assign_aqi_bucket (calibrated_aqi r) = ("Poor", "🔴").
Proof.
  apply every_bucket_reachable. simpl. tauto.
Defined.

(** The raw predictions shown as Good and those shown as Severe, with
    a margin around the two switch points: up to 38 the category is
    Good and from 39 on it is not; up to 371 it is not Severe and from
    372 on it is. *)
Theorem category_margins (r : Q) :
  (r <= 38 -> assign_aqi_bucket (calibrated_aqi r) = ("Good", "🟢")) /\
  (39 <= r -> assign_aqi_bucket (calibrated_aqi r) <> ("Good", "🟢")) /\
  (r <= 371 -> assign_aqi_bucket (calibrated_aqi r) <> ("Severe", "⚫")) /\
  (372 <= r -> assign_aqi_bucket (calibrated_aqi r) = ("Severe", "⚫")).
Proof.
  pose proof (Q.max_spec (1.05 * r + 10) 0) as M.
  pose proof (Q.min_spec 500 (Qmax (1.05 * r + 10) 0)) as N.
  fold (np_clip (1.05 * r + 10) 0 500) in N.
  change (np_clip (1.05 * r + 10) 0 500) with (calibrated_aqi r) in N.
  destruct (assign_aqi_bucket_cases (calibrated_aqi r))
    as [[B E] | [[B E] | [[B E] | [[B E] | [[B E] | [B E]]]]]];
    rewrite E; repeat split; intro H;
    try discriminate; try reflexivity; exfalso; lra.
Qed.

Lemma category_margins_witness :
  assign_aqi_bucket (calibrated_aqi 38) = ("Good", "🟢") /\
  assign_aqi_bucket (calibrated_aqi 372) = ("Severe", "⚫").
Proof.
  split.
  - apply (proj1 (category_margins 38)). unfold Qle; simpl; lia.
  - apply (proj2 (proj2 (proj2 (category_margins 372)))).
    unfold Qle; simpl; lia.
Defined.

(** ** The gate *)

Lemma py_all_true (l : list pyval) :
  py_all l = ([], Ret true) <-> (forall v : pyval, In v l -> truth v = inr true).
Proof.
  induction l as [ | v l IH ]; simpl.
  - split; [ intros _ v [] | reflexivity ].
  - destruct (truth v) as [e | [ | ]] eqn:T; simpl.
    + split; [ discriminate | ].
      intro H. specialize (H v (or_introl eq_refl)). congruence.
    + destruct (py_all l) as [t o] eqn:P. simpl. split.
      * intro H. injection H as Ht Ho.
        assert (t = []) by (destruct t; [ reflexivity | discriminate ]).
        subst t o. intros v' [<- | I]; [ exact T | ].
        apply (proj1 IH); [ reflexivity | exact I ].
      * intro H.
        pose proof (proj2 IH (fun v' I => H v' (or_intror I))) as Q.
        injection Q as -> ->. reflexivity.
    + split; [ discriminate | ].
      intro H. specialize (H v (or_introl eq_refl)). congruence.
Qed.



(** The start of the script, by the answer of [all]. *)
Lemma startup_by_gate (w : world) (o : outcome bool) :
  py_all (map (loaded w) artifact_paths) = ([], o) ->
  startup w =
    match o with
    | Ret true =>
        (page_config :: load_errors w artifact_paths,
         Ret {| g_model_with := loaded w "best_model_with_Xylene.pkl";
                g_model_without := loaded w "best_model.pkl";
                g_scaler_with := loaded w "scaler_with.pkl";
                g_scaler_without := loaded w "scaler_without.pkl" |})
    | Ret false =>
        ((page_config :: load_errors w artifact_paths) ++ [missing_files],
         Stopped)%list
    | Stopped => (page_config :: load_errors w artifact_paths, Stopped)
    | Raised e => (page_config :: load_errors w artifact_paths, Raised e)
    end.
Proof.
  intro E. unfold startup. rewrite !load_pickle_eq.
  unfold artifact_paths in E. simpl map in E.
  cbn [bind emit]. rewrite E.
  unfold artifact_paths, load_errors. simpl flat_map.
  rewrite !app_nil_r.
  destruct o as [[ | ] | | e]; simpl; rewrite ?app_nil_r, <- ?app_assoc;
    reflexivity.
Qed.

Lemma path_of_artifact (n : name) : In (path_of n) artifact_paths.
Proof.
  destruct n; simpl; tauto.
Qed.

Lemma artifact_path_of (path : string) :
  In path artifact_paths -> exists n : name, path = path_of n.
Proof.
  simpl. intros [<- | [<- | [<- | [<- | []]]]];
    [ exists model_with | exists model_without
    | exists scaler_with | exists scaler_without ]; reflexivity.
Qed.

(** A value that is true was read from its file, and is an object. *)
Lemma truthy_loaded (w : world) (path : string) :
  truth (loaded w path) = inr true ->
  exists o : pyobj,
    read_pickle w path = inr (PyObj o) /\ loaded w path = PyObj o /\
    py_bool o = inr true.
Proof.
  unfold loaded.
  destruct (read_pickle w path) as [e | [ | o]]; simpl;
    [ discriminate | discriminate | ].
  intro T. exists o. auto.
Qed.

(** When every value is true, no load has shown an error. *)
Lemma load_errors_none (w : world) (paths : list string) :
  (forall path : string, In path paths -> truth (loaded w path) = inr true) ->
  load_errors w paths = [].
Proof.
  intro H. unfold load_errors.
  induction paths as [ | path paths IH ]; [ reflexivity | ].
  simpl. rewrite IH by (intros p I; apply H; right; exact I).
  destruct (truthy_loaded w path (H path (or_introl eq_refl))) as [o [R _]].
  rewrite R. reflexivity.
Qed.

(** The gate opens when the four files unpickle to objects that are
    true: the run has then shown the page configuration only, and each
    artifact variable holds what was read from its file. *)
Theorem gate_opens (w : world) :
  (forall n : name, exists o : pyobj,
     read_pickle w (path_of n) = inr (PyObj o) /\ py_bool o = inr true) ->
  exists g : globals,
    startup w = ([page_config], Ret g) /\
    forall n : name, read_pickle w (path_of n) = inr (deref g n).
Proof.
  intro H.
  assert (T : forall path, In path artifact_paths ->
                truth (loaded w path) = inr true).
  { intros path I. destruct (artifact_path_of path I) as [n ->].
    destruct (H n) as [o [R B]]. unfold loaded. rewrite R. exact B. }
  assert (P : py_all (map (loaded w) artifact_paths) = ([], Ret true)).
  { apply py_all_true. intros v I. apply in_map_iff in I.
    destruct I as [path [<- I]]. apply T. exact I. }
  rewrite (startup_by_gate w _ P), (load_errors_none w _ T).
  eexists. split; [ reflexivity | ].
  intro n. destruct (H n) as [o [R _]].
  destruct n; cbn [deref g_model_with g_model_without g_scaler_with
                   g_scaler_without path_of] in *;
    unfold loaded; rewrite R; reflexivity.
Qed.

Lemma gate_opens_witness :
  exists g : globals,
    startup (world_ok "With Xylene") = ([page_config], Ret g) /\
    forall n : name,
      read_pickle (world_ok "With Xylene") (path_of n) = inr (deref g n).
Proof.
  apply gate_opens. intro n. exists sample_artifact.
  split; reflexivity.
Defined.

(** Past the gate every artifact variable holds an object that was read
    from its file and is true, and no error has been shown. *)
Theorem gate_invariant (w : world) (t0 : list event) (g : globals) :
  startup w = (t0, Ret g) ->
  t0 = [page_config] /\
  forall n : name, exists o : pyobj,
    deref g n = PyObj o /\ py_bool o = inr true /\
    read_pickle w (path_of n) = inr (PyObj o).
Proof.
  intro S.
  destruct (py_all (map (loaded w) artifact_paths)) as [t o] eqn:P.
  assert (t = []).
  { destruct (py_all_shape (map (loaded w) artifact_paths))
      as [[E _] | [E | [e E]]]; rewrite E in P; congruence. }
  subst t.
  rewrite (startup_by_gate w o P) in S.
  destruct o as [[ | ] | | e]; try discriminate.
  pose proof (proj1 (py_all_true _) P) as T.
  assert (T' : forall path, In path artifact_paths ->
                 truth (loaded w path) = inr true).
  { intros path I. apply T. apply in_map. exact I. }
  rewrite (load_errors_none w _ T') in S.
  injection S as <- <-.
  split; [ reflexivity | ].
  intro n.
  destruct (truthy_loaded w (path_of n) (T' _ (path_of_artifact n)))
    as [o [R [L B]]].
  exists o. split; [ | auto ].
  destruct n; exact L.
Qed.

Lemma gate_invariant_witness :
  exists o : pyobj,
    read_pickle (world_ok "With Xylene") (path_of scaler_with) = inr (PyObj o).
Proof.
  edestruct (gate_invariant (world_ok "With Xylene")) as [_ H];
    [ reflexivity | ].
  destruct (H scaler_with) as [o [_ [_ R]]].
  exists o. exact R.
Defined.







(** The gate is not protected: when the first artifact is an object
    whose truth test raises, the exception leaves the script. *)
Theorem ambiguous_truth_raises (w : world) (o : pyobj) (e : exn) :
  read_pickle w (path_of model_with) = inr (PyObj o) ->
  py_bool o = inl e ->
  snd (main w) = Raised e /\
  forallb (fun ev => negb (interface_event ev)) (fst (main w)) = true.
Proof.
  intros R B.
  assert (P : py_all (map (loaded w) artifact_paths) = ([], Raised e)).
  { unfold artifact_paths. simpl map. unfold py_all, loaded at 1.
    cbn [path_of] in R. rewrite R. cbn [truth]. rewrite B. reflexivity. }
  unfold main. rewrite (startup_by_gate w _ P). cbn [bind fst snd].
  split; [ reflexivity | ].
  cbn [forallb]. rewrite load_errors_quiet by reflexivity. reflexivity.
Qed.

Lemma ambiguous_truth_raises_witness :
  exists e : exn, snd (main world_ambiguous) = Raised e.
Proof.
  eexists.
  apply (ambiguous_truth_raises world_ambiguous ambiguous); reflexivity.
Defined.



(** ** Runs past the gate *)

Lemma interface_fst (w : world) :
  interface w =
    (fst (interface w),
     Ret (radio w,
          map (fun f => (f, entered w f)) (selected_features (radio w)))).
Proof.
  destruct (interface_shape w) as [t [I _]]. rewrite I. reflexivity.
Qed.

(** A run in which the gate passes and the button is pressed, by the
    way the [try] body ends. *)
Lemma main_pressed_eq (w : world) (g : globals) (t0 tb : list event)
  (o : outcome Q) :
  startup w = (t0, Ret g) ->
  button w = true ->
  attempt g (fst (select_artifacts (radio w)))
    (snd (select_artifacts (radio w)))
    [map (entered w) (selected_features (radio w))] = (tb, o) ->
  main w =
    match o with
    | Ret r =>
        (([page_config] ++ fst (interface w) ++ [StButton "🔍 Predict AQI"]) ++
         tb ++
         fst (results_display (calibrated_aqi r)
                (fst (assign_aqi_bucket (calibrated_aqi r)))
                (snd (assign_aqi_bucket (calibrated_aqi r)))) ++
         fst footer, Ret tt)%list
    | Stopped =>
        (([page_config] ++ fst (interface w) ++ [StButton "🔍 Predict AQI"]) ++
         tb, Stopped)%list
    | Raised e =>
        (([page_config] ++ fst (interface w) ++ [StButton "🔍 Predict AQI"]) ++
         tb ++ [StError ("Prediction failed: " ++ exn_str e)], Stopped)%list
    end.
Proof.
  intros S B A.
  rewrite (main_after_form w g t0 _ _ S (interface_fst w)), B.
  apply startup_ret in S. subst t0.
  cbn [fst snd]. unfold prediction.
  rewrite entered_row.
  destruct (select_artifacts (radio w)) as [model scaler].
  cbn [fst snd] in A. rewrite A.
  destruct o as [r | | e]; cbn [try_except bind emit st_stop].
  - destruct (assign_aqi_bucket (calibrated_aqi r)) as [bucket emoji].
    cbn [fst snd results_display footer bind emit app].
    rewrite <- !app_assoc. reflexivity.
  - reflexivity.
  - reflexivity.
Qed.

(** A completed prediction. When the gate has passed, the button is
    pressed, the selected scaler's [transform] returns and the selected
    model's [predict] returns a one-dimensional array that starts with
    a real number, the scaler is called on the row of entered numbers
    and the model on what the scaler returned. The run shows, in order,
    the page configuration, the form, the button, the two calls, the
    results display (rule, heading, two columns, one metric, one
    category line of one of the six buckets, the legend) and the
    footer, and completes. The text of the metric and the bucket chosen
    are left open here. *)
Theorem prediction_succeeds (w : world) (g : globals) (t0 : list event)
  (s m : pyobj) (y : matrix) (r : Q) (others : list Q) :
  startup w = (t0, Ret g) ->
  button w = true ->
  deref g (snd (select_artifacts (radio w))) = PyObj s ->
  py_transform s [map (entered w) (selected_features (radio w))] = inr y ->
  deref g (fst (select_artifacts (radio w))) = PyObj m ->
  py_predict m y = inr (r :: others) ->
  exists (shown : string) (p : string * string),
    In p aqi_buckets /\
    main w =
      (([page_config] ++ fst (interface w) ++ [StButton "🔍 Predict AQI"]) ++
       [Call (snd (select_artifacts (radio w))) "transform"
          [map (entered w) (selected_features (radio w))];
        Call (fst (select_artifacts (radio w))) "predict" y] ++
       [StMarkdown "---"; StMarkdown "## 🌡️ Predicted Results"; StColumns 2;
        StMetric "Predicted AQI" shown;
        StMarkdown (category_line (fst p) (snd p)); StInfo ranges_info] ++
       fst footer, Ret tt)%list.
Proof.
  intros S B Ds T Dm P.
  assert (A : attempt g (fst (select_artifacts (radio w)))
                (snd (select_artifacts (radio w)))
                [map (entered w) (selected_features (radio w))] =
              ([Call (snd (select_artifacts (radio w))) "transform"
                  [map (entered w) (selected_features (radio w))];
                Call (fst (select_artifacts (radio w))) "predict" y], Ret r)).
  { unfold attempt, call_transform, call_predict.
    rewrite Ds, T. cbn [bind emit lift ret app].
    rewrite Dm, P. reflexivity. }
  pose proof (main_pressed_eq w g t0 _ _ S B A) as M. cbn beta iota in M.
  exists (format_2f (calibrated_aqi r)), (assign_aqi_bucket (calibrated_aqi r)).
  split; [ | exact M ].
  destruct (assign_aqi_bucket_cases (calibrated_aqi r))
    as [[_ E] | [[_ E] | [[_ E] | [[_ E] | [[_ E] | [_ E]]]]]];
    rewrite E; simpl; tauto.
Qed.

Lemma prediction_succeeds_witness :
  snd (main (world_ok "Without Xylene")) = Ret tt.
Proof.
  edestruct (prediction_succeeds (world_ok "Without Xylene"))
    as [shown [p [_ M]]];
    [ reflexivity | reflexivity | reflexivity | reflexivity | reflexivity
    | reflexivity | rewrite M; reflexivity ].
Defined.

(** A scaler that raises keeps the model out: when the gate has passed,
    the button is pressed and [transform] raises, the run calls the
    scaler, shows the failure and stops; [predict] is never called. *)
Theorem failing_scaler_skips_model (w : world) (g : globals)
  (t0 : list event) (s : pyobj) (e : exn) :
  startup w = (t0, Ret g) ->
  button w = true ->
  deref g (snd (select_artifacts (radio w))) = PyObj s ->
  py_transform s [map (entered w) (selected_features (radio w))] = inl e ->
  main w =
    (([page_config] ++ fst (interface w) ++ [StButton "🔍 Predict AQI"]) ++
     [Call (snd (select_artifacts (radio w))) "transform"
        [map (entered w) (selected_features (radio w))];
      StError ("Prediction failed: " ++ exn_str e)], Stopped)%list /\
  call_count "predict" (fst (main w)) = 0%nat.
Proof.
  intros S B Ds T.
  assert (A : attempt g (fst (select_artifacts (radio w)))
                (snd (select_artifacts (radio w)))
                [map (entered w) (selected_features (radio w))] =
              ([Call (snd (select_artifacts (radio w))) "transform"
                  [map (entered w) (selected_features (radio w))]], Raised e)).
  { unfold attempt, call_transform, call_predict.
    rewrite Ds, T. reflexivity. }
  pose proof (main_pressed_eq w g t0 _ _ S B A) as M. cbn beta iota in M.
  split; [ exact M | ].
  rewrite M. cbn [fst].
  destruct (interface_shape w) as [t1 [I [_ [N _]]]].
  rewrite I. cbn [fst].
  rewrite !call_count_app, N. reflexivity.
Qed.

Lemma failing_scaler_skips_model_witness :
  call_count "predict" (fst (main world_bad_scaler)) = 0%nat.
Proof.
  edestruct (failing_scaler_skips_model world_bad_scaler) as [_ H];
    [ reflexivity | reflexivity | reflexivity | reflexivity | exact H ].
Defined.

(** A model that answers no prediction at all: taking the first element
    of the empty array fails inside the [try], so the run shows the
    failure and stops like for any other error. *)
Theorem empty_prediction_fails (w : world) (g : globals) (t0 : list event)
  (s m : pyobj) (y : matrix) :
  startup w = (t0, Ret g) ->
  button w = true ->
  deref g (snd (select_artifacts (radio w))) = PyObj s ->
  py_transform s [map (entered w) (selected_features (radio w))] = inr y ->
  deref g (fst (select_artifacts (radio w))) = PyObj m ->
  py_predict m y = inr [] ->
  main w =
    (([page_config] ++ fst (interface w) ++ [StButton "🔍 Predict AQI"]) ++
     [Call (snd (select_artifacts (radio w))) "transform"
        [map (entered w) (selected_features (radio w))];
      Call (fst (select_artifacts (radio w))) "predict" y;
      StError "Prediction failed: index 0 is out of bounds for axis 0 with size 0"],
     Stopped)%list.
Proof.
  intros S B Ds T Dm P.
  assert (A : attempt g (fst (select_artifacts (radio w)))
                (snd (select_artifacts (radio w)))
                [map (entered w) (selected_features (radio w))] =
              ([Call (snd (select_artifacts (radio w))) "transform"
                  [map (entered w) (selected_features (radio w))];
                Call (fst (select_artifacts (radio w))) "predict" y],
               Raised (Exception "index 0 is out of bounds for axis 0 with size 0"))).
  { unfold attempt, call_transform, call_predict.
    rewrite Ds, T. cbn [bind emit lift ret app].
    rewrite Dm, P. reflexivity. }
  exact (main_pressed_eq w g t0 _ _ S B A).
Qed.

Lemma empty_prediction_fails_witness :
  snd (main world_empty_prediction) = Stopped.
Proof.
  erewrite (empty_prediction_fails world_empty_prediction);
    reflexivity.
Defined.

(** The run in which the gate passes and the button is left alone. *)
Lemma idle_run_eq (w : world) (g : globals) (t0 : list event) :
  startup w = (t0, Ret g) ->
  button w = false ->
  main w =
    ([page_config] ++ fst (interface w) ++ [StButton "🔍 Predict AQI"] ++
     fst footer, Ret tt)%list.
Proof.
  intros S B.
  rewrite (main_after_form w g t0 _ _ S (interface_fst w)), B.
  apply startup_ret in S. subst t0.
  cbn [bind ret footer emit fst app].
  rewrite <- !app_assoc. reflexivity.
Qed.

(** Without a press of the button nothing is predicted: the run shows
    the page configuration, the form, the button and the footer, calls
    no artifact and completes. *)
Theorem idle_run (w : world) (g : globals) (t0 : list event) :
  startup w = (t0, Ret g) ->
  button w = false ->
  main w =
    ([page_config] ++ fst (interface w) ++ [StButton "🔍 Predict AQI"] ++
     fst footer, Ret tt)%list /\
  callees (fst (main w)) = [] /\
  (forall method : string, call_count method (fst (main w)) = 0%nat).
Proof.
  intros S B.
  pose proof (idle_run_eq w g t0 S B) as M.
  split; [ exact M | ].
  rewrite M. cbn [fst].
  destruct (interface_shape w) as [t1 [I [C [N _]]]].
  rewrite I. cbn [fst].
  split.
  - rewrite !callees_app, C. reflexivity.
  - intro method. rewrite !call_count_app, N. reflexivity.
Qed.

Lemma idle_run_witness :
  callees (fst (main world_idle)) = [].
Proof.
  edestruct (idle_run world_idle) as [_ [H _]];
    [ reflexivity | reflexivity | exact H ].
Defined.

(** ** The footer *)

Lemma load_errors_no_caption (w : world) (paths : list string) :
  existsb is_caption (load_errors w paths) = false.
Proof.
  unfold load_errors.
  induction paths as [ | path paths IH ]; [ reflexivity | ].
  simpl. rewrite existsb_app, IH.
  destruct (read_pickle w path); reflexivity.
Qed.

Lemma interface_no_caption (w : world) :
  existsb is_caption (fst (interface w)) = false.
Proof.
  unfold interface, st_radio, selected_features.
  cbn [bind emit ret].
  destruct (String.eqb (radio w) "With Xylene"); reflexivity.
Qed.

(** The footer is shown exactly in the runs that complete: a run that
    the gate or a failed prediction stops, or that an exception ends,
    shows no caption. *)
Theorem footer_iff_completed (w : world) :
  existsb is_caption (fst (main w)) = true <-> snd (main w) = Ret tt.
Proof.
  destruct (startup_cases w) as [[_ [_ S]] | [S | [e S]]].
  - match type of S with _ = (_, Ret ?g0) => set (g := g0) in * end.
    destruct (button w) eqn:B.
    + destruct (attempt_shape g (fst (select_artifacts (radio w)))
                  (snd (select_artifacts (radio w)))
                  [map (entered w) (selected_features (radio w))])
        as [tb [o [A [NS T]]]].
      rewrite (main_pressed_eq w g _ tb o S B A).
      assert (C : existsb is_caption tb = false)
        by (destruct T as [-> | [y ->]]; reflexivity).
      destruct o as [r | | e]; cbn [fst snd].
      * split; [ reflexivity | intros _ ].
        rewrite !existsb_app. cbn [footer bind emit fst app existsb is_caption].
        rewrite !orb_true_r. reflexivity.
      * congruence.
      * rewrite !existsb_app, interface_no_caption, C. cbn.
        split; discriminate.
    + rewrite (idle_run_eq w g _ S B). cbn [fst snd].
      split; [ reflexivity | intros _ ].
      rewrite !existsb_app. cbn [footer bind emit fst app existsb is_caption].
      rewrite !orb_true_r. reflexivity.
  - unfold main. rewrite S. cbn [bind fst snd].
    rewrite existsb_app. cbn [existsb is_caption page_config missing_files].
    rewrite load_errors_no_caption. cbn. split; discriminate.
  - unfold main. rewrite S. cbn [bind fst snd].
    cbn [existsb is_caption page_config].
    rewrite load_errors_no_caption. cbn. split; discriminate.
Qed.

(** ** Dictionaries and the input loop *)

Lemma dict_get_missing {V : Type} (d : dict V) (k : string) :
  ~ In k (map fst d) -> dict_get d k = inl (Exception ("'" ++ k ++ "'")).
Proof.
  induction d as [ | [k' v'] d IH ]; simpl; intro N; [ reflexivity | ].
  destruct (String.eqb_spec k' k) as [E | E]; [ tauto | ].
  apply IH. tauto.
Qed.

Lemma dict_set_fresh {V : Type} (d : dict V) (k : string) (v : V) :
  ~ In k (map fst d) -> dict_set d k v = (d ++ [(k, v)])%list.
Proof.
  induction d as [ | [k' v'] d IH ]; simpl; intro N; [ reflexivity | ].
  destruct (String.eqb_spec k' k) as [E | E]; [ tauto | ].
  rewrite IH by tauto. reflexivity.
Qed.

Lemma dict_set_present {V : Type} (d : dict V) (k : string) (v : V) :
  In k (map fst d) -> map fst (dict_set d k v) = map fst d.
Proof.
  induction d as [ | [k' v'] d IH ]; simpl; intro I; [ tauto | ].
  destruct (String.eqb_spec k' k) as [E | E]; [ reflexivity | ].
  simpl. rewrite IH; [ reflexivity | ]. destruct I; [ congruence | assumption ].
Qed.

(** Assignment and lookup on a dictionary: a key reads back the value
    last assigned to it, the other keys are untouched, and a lookup
    succeeds exactly for the keys that are present: for any other key
    it raises. *)
Theorem dict_set_get {V : Type} (d : dict V) (k k' : string) (v : V) :
  dict_get (dict_set d k v) k = inr v /\
  (k' <> k -> dict_get (dict_set d k v) k' = dict_get d k') /\
  (In k' (map fst d) <-> exists v' : V, dict_get d k' = inr v') /\
  (~ In k' (map fst d) <-> exists e : exn, dict_get d k' = inl e).
Proof.
  assert (P : forall d0 : dict V,
            In k' (map fst d0) <-> exists v' : V, dict_get d0 k' = inr v').
  { induction d0 as [ | [k0 v0] d0 IH ]; simpl.
    - split; [ tauto | intros [v' H]; discriminate ].
    - destruct (String.eqb_spec k0 k') as [E | E].
      + split; [ intros _; exists v0; reflexivity | tauto ].
      + rewrite <- IH. tauto. }
  split; [ | split; [ | split; [ apply P | ] ] ].
  - induction d as [ | [k0 v0] d IH ]; simpl.
    + rewrite String.eqb_refl. reflexivity.
    + destruct (String.eqb_spec k0 k) as [E | E]; simpl.
      * rewrite E, String.eqb_refl. reflexivity.
      * destruct (String.eqb_spec k0 k); [ tauto | exact IH ].
  - intro N. induction d as [ | [k0 v0] d IH ]; simpl.
    + destruct (String.eqb_spec k k'); [ congruence | reflexivity ].
    + destruct (String.eqb_spec k0 k) as [E | E]; simpl.
      * destruct (String.eqb_spec k0 k'); [ congruence | reflexivity ].
      * destruct (String.eqb_spec k0 k'); [ reflexivity | exact IH ].
  - rewrite (P d). destruct (dict_get d k') as [e | v'].
    + split; [ intros _; exists e; reflexivity | ].
      intros _ [v' H]. discriminate.
    + split; [ intro H; exfalso; apply H; exists v'; reflexivity | ].
      intros [e H]. discriminate.
Qed.

Lemma dict_set_get_witness :
  dict_get (dict_set units "Ozone" "ppb") "CO" = inr "mg/m³" /\
  exists e : exn, dict_get units "Ozone" = inl e.
Proof.
  split.
  - rewrite (proj1 (proj2 (dict_set_get units "Ozone" "CO" "ppb")));
      [ reflexivity | discriminate ].
  - apply (proj1 (proj2 (proj2 (proj2 (dict_set_get units "Ozone" "Ozone" "ppb"))))).
    simpl. intuition discriminate.
Defined.

(** Assignment keeps the keys unique and in insertion order: a new key
    goes to the end, an old key keeps its place, and the number of
    entries grows only for a new key. *)
Theorem dict_set_keys {V : Type} (d : dict V) (k : string) (v : V) :
  NoDup (map fst d) ->
  NoDup (map fst (dict_set d k v)) /\
  (In k (map fst d) -> map fst (dict_set d k v) = map fst d) /\
  (~ In k (map fst d) -> map fst (dict_set d k v) = (map fst d ++ [k])%list).
Proof.
  intro N.
  assert (F : ~ In k (map fst d) ->
              map fst (dict_set d k v) = (map fst d ++ [k])%list).
  { intro A. rewrite (dict_set_fresh d k v A), map_app. reflexivity. }
  split; [ | split; [ apply dict_set_present | exact F ] ].
  destruct (in_dec string_dec k (map fst d)) as [I | A].
  - rewrite (dict_set_present d k v I). exact N.
  - rewrite (F A). apply NoDup_app; [ exact N | | ].
    + constructor; [ simpl; tauto | constructor ].
    + intros x Ix [<- | []]. exact (A Ix).
Qed.

Lemma dict_set_keys_witness :
  map fst (dict_set units "CO" "ppm") = map fst units.
Proof.
  apply (proj1 (proj2 (dict_set_keys units "CO" "ppm"
    ltac:(simpl; repeat (constructor; [ simpl; intuition discriminate | ]);
          constructor)))).
  simpl. tauto.
Defined.

(** The input loop on any schema: when the features are pairwise
    distinct, all have a unit and none is a key of [user_input] yet,
    the loop shows one field per feature, in order, in column index
    modulo 3, and appends one entry per feature in the same order. *)
Theorem input_loop_general (w : world) (items : list (nat * string))
  (user_input : dict Q) :
  (forall item : nat * string, In item items ->
     exists unit : string, dict_get units (snd item) = inr unit) ->
  NoDup (map snd items) ->
  (forall item : nat * string, In item items ->
     ~ In (snd item) (map fst user_input)) ->
  input_loop w items user_input =
    (map field items, Ret (user_input ++ map (entry w) items)%list).
Proof.
  revert user_input.
  induction items as [ | [i f] items IH ]; intros d U N K.
  - simpl. rewrite app_nil_r. reflexivity.
  - destruct (U (i, f) (or_introl eq_refl)) as [unit G]. cbn [snd] in G.
    inversion N as [ | ? ? Nf N' ]; subst.
    cbn [input_loop]. rewrite G.
    unfold st_number_input. cbn [lift ret bind emit].
    rewrite (dict_set_fresh d f _ (K (i, f) (or_introl eq_refl))).
    rewrite IH.
    + assert (Ef : field (i, f) =
                   StNumberInput (i mod 3) (f ++ " (" ++ unit ++ ")")
                     0.0 0.01 "%.2f")
        by (unfold field, field_label; cbn [fst snd]; rewrite G; reflexivity).
      assert (Ee : entry w (i, f) =
                   (f, number_input w (f ++ " (" ++ unit ++ ")")))
        by (unfold entry, entered; cbn [snd]; rewrite G; reflexivity).
      cbn [map app]. rewrite Ef, Ee, <- app_assoc. reflexivity.
    + intros item I. apply U. right. exact I.
    + exact N'.
    + intros item I. rewrite map_app. intro C.
      apply in_app_or in C. destruct C as [C | [C | []]].
      * exact (K item (or_intror I) C).
      * cbn [fst] in C. apply Nf. rewrite C.
        apply in_map. exact I.
Qed.

Lemma input_loop_general_witness :
  input_loop (world_ok "With Xylene") [(0%nat, "CO"); (1%nat, "O3")] [] =
  ([field (0%nat, "CO"); field (1%nat, "O3")],
   Ret [entry (world_ok "With Xylene") (0%nat, "CO");
        entry (world_ok "With Xylene") (1%nat, "O3")]).
Proof.
  apply (input_loop_general (world_ok "With Xylene")
           [(0%nat, "CO"); (1%nat, "O3")] []).
  - intros item [<- | [<- | []]]; eexists; reflexivity.
  - simpl. repeat (constructor; [ simpl; intuition discriminate | ]).
    constructor.
  - intros item _ [].
Defined.

(** A feature without a unit ends the loop with an exception, the
    [KeyError] of the lookup, before its field is shown. *)
Theorem input_loop_missing_unit (w : world) (i : nat) (feature : string)
  (rest : list (nat * string)) (user_input : dict Q) :
  ~ In feature (map fst units) ->
  exists e : exn,
    dict_get units feature = inl e /\
    input_loop w ((i, feature) :: rest) user_input = ([], Raised e).
Proof.
  intro N. cbn [input_loop].
  rewrite (dict_get_missing units feature N).
  eexists. split; reflexivity.
Qed.

Lemma input_loop_missing_unit_witness :
  exists e : exn,
    dict_get units "Ozone" = inl e /\
    input_loop (world_ok "With Xylene") [(0%nat, "Ozone")] [] = ([], Raised e).
Proof.
  apply (input_loop_missing_unit (world_ok "With Xylene") 0 "Ozone" [] []).
  simpl. intuition discriminate.
Defined.


(** ** The displayed value *)

(** The rounding of the two-decimal format, on exact values: it gives
    an integer within one half of its argument, strictly nearer than
    one half unless the argument lies halfway between two integers, and
    then it gives the even one of the two; it gives back every
    integer. *)
Theorem round_half_even_nearest (q : Q) :
  Qabs (inject_Z (round_half_even q) - q) <= 1 # 2 /\
  (forall n : Z, q == inject_Z n -> round_half_even q = n) /\
  (forall n : Z, q == inject_Z n + (1 # 2) ->
     Z.even (round_half_even q) = true /\
     (round_half_even q = n \/ round_half_even q = (n + 1)%Z)) /\
  ((forall n : Z, ~ q == inject_Z n + (1 # 2)) ->
   Qabs (inject_Z (round_half_even q) - q) < 1 # 2).
Proof.
  pose proof (Qfloor_le q) as L.
  pose proof (Qlt_floor q) as U.
  rewrite inject_Z_plus in U. change (inject_Z 1) with 1 in U.
  assert (F : forall n : Z,
            inject_Z n <= q -> q < inject_Z n + 1 -> Qfloor q = n).
  { intros n Ln Un.
    assert (A : (Qfloor q < n + 1)%Z).
    { rewrite Zlt_Qlt, inject_Z_plus. change (inject_Z 1) with 1. lra. }
    assert (B : (n < Qfloor q + 1)%Z).
    { rewrite Zlt_Qlt, inject_Z_plus. change (inject_Z 1) with 1. lra. }
    lia. }
  unfold round_half_even. split; [ | split; [ | split ] ].
  - apply Qabs_Qle_condition.
    destruct (Qcompare (q - inject_Z (Qfloor q)) (1 # 2)) eqn:C.
    + apply Qeq_alt in C.
      destruct (Z.even (Qfloor q));
        rewrite ?inject_Z_plus; change (inject_Z 1) with 1; split; lra.
    + apply Qlt_alt in C. split; lra.
    + apply Qgt_alt in C.
      rewrite inject_Z_plus. change (inject_Z 1) with 1. split; lra.
  - intros n E.
    rewrite (F n) by lra.
    assert (C : Qcompare (q - inject_Z n) (1 # 2) = Lt).
    { apply (proj1 (Qlt_alt _ _)). lra. }
    rewrite C. reflexivity.
  - intros n E.
    rewrite (F n) by lra.
    assert (C : Qcompare (q - inject_Z n) (1 # 2) = Eq).
    { apply (proj1 (Qeq_alt _ _)). lra. }
    rewrite C.
    destruct (Z.even n) eqn:V.
    + split; [ exact V | left; reflexivity ].
    + split; [ | right; reflexivity ].
      rewrite Z.add_1_r, Z.even_succ, <- Z.negb_even, V. reflexivity.
  - intro T.
    destruct (Qcompare (q - inject_Z (Qfloor q)) (1 # 2)) eqn:C.
    + apply Qeq_alt in C. exfalso. apply (T (Qfloor q)). lra.
    + apply Qlt_alt in C.
      destruct (Qle_lt_or_eq _ _ L) as [S | S].
      * apply Qabs_case; intros; lra.
      * apply Qabs_case; intros; lra.
    + apply Qgt_alt in C.
      rewrite inject_Z_plus. change (inject_Z 1) with 1.
      apply Qabs_case; intros; lra.
Qed.

Lemma round_half_even_nearest_witness :
  round_half_even (inject_Z 500) = 500%Z /\
  Z.even (round_half_even (5 # 2)) = true.
Proof.
  split.
  - apply (proj1 (proj2 (round_half_even_nearest (inject_Z 500)))).
    reflexivity.
  - apply (proj1 (proj2 (proj2 (round_half_even_nearest (5 # 2)))) 2%Z).
    reflexivity.
Defined.
